(** * Dashboard: the proposal list view of BusinessProposalApp

    A shallow embedding of [src/pages/Dashboard.tsx]: the string primitives
    the component calls ([trim], [toLowerCase], [includes]), the component
    state, the filter effect, the four handlers and what the component
    renders, followed by the properties of the specification that concern
    them and by further properties read off the code.

    Strings are sequences of code units; the development covers the code
    units U+0000..U+00FF, which is what [ascii] holds. *)

From Stdlib Require Import Ascii String NArith Bool List Lia.
From stdpp Require Import base list strings.
Import ListNotations.

Open Scope string_scope.
Open Scope list_scope.

(** ** String primitives *)

Module Js.

(** [String.prototype.toLowerCase] on one code unit: A-Z, and the Latin-1
    capitals U+00C0..U+00DE but the multiplication sign U+00D7, move up by
    32; every other code unit below U+0100 is its own lower case. *)
Definition lowerChar (c : ascii) : ascii :=
  let n := N_of_ascii c in
  if ((65 <=? n) && (n <=? 90))%N
     || ((192 <=? n) && (n <=? 222) && negb (n =? 215))%N
  then ascii_of_N (n + 32)
  else c.

Fixpoint toLowerCase (s : string) : string :=
  match s with
  | EmptyString => EmptyString
  | String c s' => String (lowerChar c) (toLowerCase s')
  end.

(** White space and line terminators below U+0100: TAB, LF, VT, FF, CR,
    SPACE and NO-BREAK SPACE. *)
Definition isWhiteSpace (c : ascii) : bool :=
  let n := N_of_ascii c in
  (((9 <=? n) && (n <=? 13)) || (n =? 32) || (n =? 160))%N.

Fixpoint trimStart (s : string) : string :=
  match s with
  | EmptyString => EmptyString
  | String c s' => if isWhiteSpace c then trimStart s' else s
  end.

Fixpoint trimEnd (s : string) : string :=
  match s with
  | EmptyString => EmptyString
  | String c s' =>
      match trimEnd s' with
      | EmptyString => if isWhiteSpace c then EmptyString else String c EmptyString
      | t => String c t
      end
  end.

(** [String.prototype.trim]. *)
Definition trim (s : string) : string := trimEnd (trimStart s).

(** [s.includes(t)]: [t] occurs in [s] at some position. *)
Fixpoint includes (s t : string) : bool :=
  if String.prefix t s then true
  else match s with
       | EmptyString => false
       | String _ s' => includes s' t
       end.

(** Truthiness of a string, and of a string that may be [null] or
    [undefined]: the empty string is falsy. *)
Definition truthyStr (s : string) : bool :=
  match s with EmptyString => false | String _ _ => true end.

Definition truthy (o : option string) : bool :=
  match o with None => false | Some s => truthyStr s end.

(** A value spliced into a template literal. *)
Definition toString (o : option string) : string :=
  match o with None => "undefined" | Some s => s end.

(** [a === b] where [b] may be [null]. *)
Definition strictEq (a : string) (b : option string) : bool :=
  match b with None => false | Some s => String.eqb a s end.

End Js.

(** ** Data model *)

(** Modelled from the spec: the declaration of [Proposal] in
    [@/types/proposal] is not part of the sources at hand.  The component
    reads four fields; [clientEmail] is optional, [tags] is an ordered
    sequence of strings. *)
Record Proposal := {
  id : string;
  clientName : string;
  clientEmail : option string;
  tags : list string;
}.

(** The union type ["name" | "tags"] of the search selector. *)
Inductive SearchBy := byName | byTags.

(** The [value]/[label] pairs offered by the template selector. *)
Definition emailTemplateOptions : list (string * string) :=
  [ ("standard", "Standard Proposal");
    ("detailed", "Detailed Breakdown");
    ("summary", "Brief Summary");
    ("formal", "Formal Business Proposal") ].

(** The label shown for a template value. *)
Definition templateLabel (value : string) : option string :=
  snd <$> List.find (fun o => String.eqb (fst o) value) emailTemplateOptions.

(** The seven [useState] cells of the component. *)
Record State := {
  proposals : list Proposal;
  filteredProposals : list Proposal;
  loading : bool;
  selectedProposal : option string;
  selectedTemplate : string;
  searchQuery : string;
  searchBy : SearchBy;
}.

(** The initial value of every cell. *)
Definition initialState : State := {|
  proposals := [];
  filteredProposals := [];
  loading := true;
  selectedProposal := None;
  selectedTemplate := "standard";
  searchQuery := "";
  searchBy := byName;
|}.

(** Writing one cell leaves the six others as they are. *)
Definition with_proposals (v : list Proposal) (s : State) : State :=
  {| proposals := v; filteredProposals := filteredProposals s;
     loading := loading s; selectedProposal := selectedProposal s; selectedTemplate := selectedTemplate s;
     searchQuery := searchQuery s; searchBy := searchBy s |}.

Definition with_filteredProposals (v : list Proposal) (s : State) : State :=
  {| proposals := proposals s; filteredProposals := v;
     loading := loading s; selectedProposal := selectedProposal s; selectedTemplate := selectedTemplate s;
     searchQuery := searchQuery s; searchBy := searchBy s |}.

Definition with_loading (v : bool) (s : State) : State :=
  {| proposals := proposals s; filteredProposals := filteredProposals s;
     loading := v; selectedProposal := selectedProposal s; selectedTemplate := selectedTemplate s;
     searchQuery := searchQuery s; searchBy := searchBy s |}.

Definition with_selectedProposal (v : option string) (s : State) : State :=
  {| proposals := proposals s; filteredProposals := filteredProposals s;
     loading := loading s; selectedProposal := v; selectedTemplate := selectedTemplate s;
     searchQuery := searchQuery s; searchBy := searchBy s |}.

Definition with_selectedTemplate (v : string) (s : State) : State :=
  {| proposals := proposals s; filteredProposals := filteredProposals s;
     loading := loading s; selectedProposal := selectedProposal s; selectedTemplate := v;
     searchQuery := searchQuery s; searchBy := searchBy s |}.

Definition with_searchQuery (v : string) (s : State) : State :=
  {| proposals := proposals s; filteredProposals := filteredProposals s;
     loading := loading s; selectedProposal := selectedProposal s; selectedTemplate := selectedTemplate s;
     searchQuery := v; searchBy := searchBy s |}.

Definition with_searchBy (v : SearchBy) (s : State) : State :=
  {| proposals := proposals s; filteredProposals := filteredProposals s;
     loading := loading s; selectedProposal := selectedProposal s; selectedTemplate := selectedTemplate s;
     searchQuery := searchQuery s; searchBy := v |}.

(** A rejection reason of a promise. *)
Definition Err := string.

(** What the component emits besides state updates: [console.error] and the
    three sorts of [toast] it raises. *)
Inductive Effect :=
| console_error (msg : string) (error : Err)
| toast (msg : string)
| toast_error (msg : string)
| toast_success (msg : string).

Definition isSuccess (e : Effect) : bool :=
  match e with toast_success _ => true | _ => false end.

(** ** The filter *)

(** The callback given to [proposals.filter], for a lower-cased [query]. *)
Definition matchesQuery (by_ : SearchBy) (query : string) (proposal : Proposal) : bool :=
  match by_ with
  | byName => Js.includes (Js.toLowerCase (clientName proposal)) query
  | byTags =>
      existsb (fun tag => Js.includes (Js.toLowerCase tag) query) (tags proposal)
  end.

(** The value the filter effect stores in [filteredProposals]. *)
Definition filterProposals
    (by_ : SearchBy) (searchQuery : string) (proposals : list Proposal)
  : list Proposal :=
  if String.eqb (Js.trim searchQuery) "" then proposals
  else
    let query := Js.toLowerCase searchQuery in
    List.filter (matchesQuery by_ query) proposals.

(** ** The component as state-passing code *)

Section Dashboard.

(** The proposal service [@/services/proposalService] is an external
    collaborator: [World] is whatever it keeps, and each of its two calls
    settles either with a rejection reason or with a value. *)
Context {World : Type}.
Variable fetchProposals : World -> (Err + list Proposal) * World.
Variable deleteProposal : string -> World -> (Err + unit) * World.

(** What a handler runs against: the cells of the component, the
    collaborator, and what has been emitted so far, oldest first. *)
Record Env := {
  view : State;
  outside : World;
  emitted : list Effect;
}.

(** A computation either completes with a value or throws.  A handler is
    run to completion on the cells as they are when it starts: the source
    writes its cells only in the synchronous stretch that follows its last
    [await], and reads them from the render that installed the handler. *)
Definition M (A : Type) : Type := Env -> (Err + A) * Env.

#[local] Instance M_ret : MRet M := fun A a env => (inr a, env).

#[local] Instance M_bind : MBind M := fun A B k m env =>
  match m env with
  | (inl e, env') => (inl e, env')
  | (inr a, env') => k a env'
  end.

(** [try { body } catch (error) { handler error }]. *)
Definition tryCatch {A} (body : M A) (handler : Err -> M A) : M A :=
  fun env =>
    match body env with
    | (inl e, env') => handler e env'
    | r => r
    end.

(** [try { body } finally { final }]. *)
Definition tryFinally {A} (body : M A) (final : M unit) : M A :=
  fun env =>
    let '(r, env') := body env in
    match final env' with
    | (inl e, env'') => (inl e, env'')
    | (inr _, env'') => (r, env'')
    end.

(** [await call()]: the collaborator settles; a rejection is thrown. *)
Definition await {A} (call : World -> (Err + A) * World) : M A :=
  fun env =>
    let '(r, w) := call (outside env) in
    (r, {| view := view env; outside := w; emitted := emitted env |}).

Definition getState : M State := fun env => (inr (view env), env).

Definition setState (f : State -> State) : M unit :=
  fun env =>
    (inr tt, {| view := f (view env); outside := outside env;
                emitted := emitted env |}).

Definition emit (e : Effect) : M unit :=
  fun env =>
    (inr tt, {| view := view env; outside := outside env;
                emitted := emitted env ++ [e] |}).

(** The setters returned by [useState]. *)
Definition setProposals (v : list Proposal) : M unit := setState (with_proposals v).
Definition setFilteredProposals (v : list Proposal) : M unit := setState (with_filteredProposals v).
Definition setLoading (v : bool) : M unit := setState (with_loading v).
Definition setSelectedProposal (v : option string) : M unit := setState (with_selectedProposal v).
Definition setSelectedTemplate (v : string) : M unit := setState (with_selectedTemplate v).
Definition setSearchQuery (v : string) : M unit := setState (with_searchQuery v).
Definition setSearchBy (v : SearchBy) : M unit := setState (with_searchBy v).

(** The effect run on mount. *)
Definition loadProposals : M unit :=
  tryFinally
    (tryCatch
       (setLoading true;;
        data ← await fetchProposals;
        setProposals data;;
        setFilteredProposals data)
       (fun error => emit (console_error "Failed to load proposals:" error)))
    (setLoading false).

(** The effect that depends on [searchQuery], [searchBy] and [proposals]. *)
Definition filterEffect : M unit :=
  s ← getState;
  setFilteredProposals (filterProposals (searchBy s) (searchQuery s) (proposals s)).

Definition handleDelete (id : string) : M unit :=
  tryCatch
    (await (deleteProposal id);;
     updatedProposals ← await fetchProposals;
     setProposals updatedProposals;;
     setFilteredProposals updatedProposals)
    (fun error => emit (console_error "Failed to delete proposal:" error)).

Definition handleProposalSelect (id : string) : M unit :=
  s ← getState;
  setSelectedProposal
    (if Js.strictEq id (selectedProposal s) then None else Some id).

Definition handleSendEmail : M unit :=
  s ← getState;
  if negb (Js.truthy (selectedProposal s)) then
    emit (toast "Please select a proposal to send")
  else
    match List.find (fun p => Js.strictEq (id p) (selectedProposal s))
                    (proposals s) with
    | None => emit (toast_error "Proposal not found")
    | Some proposal =>
        if negb (Js.truthy (clientEmail proposal)) then
          emit (toast_error "No email address found for this client")
        else
          emit (toast_success
                  ("Email sent to " +:+ Js.toString (clientEmail proposal)
                   +:+ " using " +:+ selectedTemplate s +:+ " template"))
    end.

End Dashboard.

(** ** A collaborator kept in memory

    A stand-in for the proposal service, used to run the handlers on
    concrete data: it keeps the rows in a list, hands them out on fetch,
    drops the rows of an id on delete, and rejects every call while
    [offline]. *)
Module MemoryService.

Record Store := {
  rows : list Proposal;
  offline : bool;
}.

Definition fetchProposals (w : Store) : (Err + list Proposal) * Store :=
  if offline w then (inl "Network Error", w) else (inr (rows w), w).

Definition deleteProposal (id' : string) (w : Store) : (Err + unit) * Store :=
  if offline w then (inl "Network Error", w)
  else (inr tt,
        {| rows := List.filter (fun p => negb (String.eqb (id p) id')) (rows w);
           offline := false |}).

(** The component right after its first render, against store [w]. *)
Definition mount (s : State) (w : Store) : Env :=
  {| view := s; outside := w; emitted := [] |}.

End MemoryService.

(** ** Events of the component *)

Inductive Event :=
| Mounted
| DepsChanged
| SearchInput (value : string)
| SearchBySelected (value : SearchBy)
| TemplateSelected (value : string)
| DeleteClicked (id' : string)
| RowClicked (id' : string)
| SendEmailClicked.

Section Run.

Context {World : Type}.
Variable fetchProposals : World -> (Err + list Proposal) * World.
Variable deleteProposal : string -> World -> (Err + unit) * World.

(** What runs on each event: the two effects, the three inline setters of
    the controls, and the three handlers given to the table and button. *)
Definition dispatch (e : Event) : M (World := World) unit :=
  match e with
  | Mounted => loadProposals fetchProposals
  | DepsChanged => filterEffect
  | SearchInput value => setSearchQuery value
  | SearchBySelected value => setSearchBy value
  | TemplateSelected value => setSelectedTemplate value
  | DeleteClicked id' => handleDelete fetchProposals deleteProposal id'
  | RowClicked id' => handleProposalSelect id'
  | SendEmailClicked => handleSendEmail
  end.

Definition step (e : Event) (env : Env) : Env := snd (dispatch e env).

Definition run (es : list Event) (env : Env) : Env :=
  fold_left (fun acc e => step e acc) es env.

(** The effects [m] adds to those already emitted. *)
Definition emits (m : M (World := World) unit) (env : Env) (l : list Effect) : Prop :=
  emitted (snd (m env)) = emitted env ++ l.

End Run.

(** ** Sample data *)

Module Sample.

Definition acme : Proposal :=
  {| id := "1"; clientName := "Acme"; clientEmail := Some "a@b.com";
     tags := ["web"] |}.

Definition globex : Proposal :=
  {| id := "2"; clientName := "Globex"; clientEmail := None;
     tags := ["print"; "Web"] |}.

Definition store : MemoryService.Store :=
  {| MemoryService.rows := [acme; globex]; MemoryService.offline := false |}.

(** The cells once the two rows are loaded. *)
Definition loaded : State :=
  with_loading false
    (with_filteredProposals [acme; globex]
       (with_proposals [acme; globex] initialState)).

(** The component with cells [s], against the sample store. *)
Definition env (s : State) : @Env MemoryService.Store :=
  MemoryService.mount s store.

End Sample.

(** ** Notions used by the properties *)

(** [t] occurs in [s]: some text, then [t], then some text. *)
Definition occursIn (t s : string) : Prop :=
  exists before after, s = before +:+ t +:+ after.

(** [field] contains [query] when the case of letters is ignored. *)
Definition containsIgnoringCase (field query : string) : Prop :=
  occursIn (Js.toLowerCase query) (Js.toLowerCase field).

(** The field chosen by the selector contains the query, case ignored: the
    client name, or at least one of the tags. *)
Definition fieldContains (by_ : SearchBy) (query : string) (p : Proposal) : Prop :=
  match by_ with
  | byName => containsIgnoringCase (clientName p) query
  | byTags => exists tag, In tag (tags p) /\ containsIgnoringCase tag query
  end.

(** The filter as the specification words it: the query is trimmed, an empty
    one keeps the whole list, any other one is matched after trimming. *)
Definition filterProposals_trimmed
    (by_ : SearchBy) (searchQuery : string) (proposals : list Proposal)
  : list Proposal :=
  let trimmed := Js.trim searchQuery in
  if String.eqb trimmed "" then proposals
  else List.filter (matchesQuery by_ (Js.toLowerCase trimmed)) proposals.

(** The test [!selectedProposal] of the send handler, which also disables
    the send button: a proposal counts as selected when the cell holds a
    non-empty id ([null] and the empty string are both falsy). *)
Definition hasSelection (s : State) : bool := Js.truthy (selectedProposal s).

(** The proposal the send handler looks up: the first one whose id is the
    selected one. *)
Definition findSelected (s : State) : option Proposal :=
  List.find (fun p => Js.strictEq (id p) (selectedProposal s)) (proposals s).

(** The test [!proposal.clientEmail]: an address is there when the field
    holds a non-empty string. *)
Definition hasEmail (p : Proposal) : bool := Js.truthy (clientEmail p).

(** The selection cell after the table reports a click on row [id']. *)
Definition selectionAfterClick {World : Type} (id' : string) (env : Env (World := World))
  : option string :=
  selectedProposal (view (snd (handleProposalSelect id' env))).

(** The one notification a click on the send button raises. *)
Definition sendEmailNotice (s : State) : Effect :=
  if negb (Js.truthy (selectedProposal s)) then
    toast "Please select a proposal to send"
  else
    match List.find (fun p => Js.strictEq (id p) (selectedProposal s))
                    (proposals s) with
    | None => toast_error "Proposal not found"
    | Some proposal =>
        if negb (Js.truthy (clientEmail proposal)) then
          toast_error "No email address found for this client"
        else
          toast_success
            ("Email sent to " +:+ Js.toString (clientEmail proposal)
             +:+ " using " +:+ selectedTemplate s +:+ " template")
    end.

(** [filteredProposals] is [proposals] with some elements left out, the
    others in their order. *)
Definition inOrder (s : State) : Prop :=
  sublist (filteredProposals s) (proposals s).

(** States the component can be in: it starts from the initial cells with
    nothing emitted, and moves by events. *)
Inductive reachable {World : Type}
    (fetchProposals : World -> (Err + list Proposal) * World)
    (deleteProposal : string -> World -> (Err + unit) * World)
  : Env -> Prop :=
| reachable_init (w : World) :
    reachable fetchProposals deleteProposal
      {| view := initialState; outside := w; emitted := [] |}
| reachable_step (e : Event) (env : Env) :
    reachable fetchProposals deleteProposal env ->
    reachable fetchProposals deleteProposal
      (step fetchProposals deleteProposal e env).

(** ** What the component renders *)

(** The props given to [ProposalTable]. *)
Record TableProps := {
  table_proposals : list Proposal;
  table_selectedProposalId : option string;
}.

(** The search input, the two selectors and the send button, with the
    props each is given. *)
Record Controls := {
  input_placeholder : string;
  input_value : string;
  searchBy_value : SearchBy;
  searchBy_items : list (SearchBy * string);
  template_value : string;
  template_items : list (string * string);
  send_disabled : bool;
}.

(** The part of the page between the heading and the footer: the loading
    line, the "No proposals yet" panel, or the controls above the table. *)
Inductive Body :=
| LoadingProposals
| NoProposalsYet
| SearchAndTable (controls : Controls) (table : TableProps).

(** The conditional of the returned JSX. *)
Definition render (s : State) : Body :=
  if loading s then LoadingProposals
  else if (length (proposals s) =? 0)%nat then NoProposalsYet
  else
    SearchAndTable
      {| input_placeholder :=
           "Search by "
           +:+ (match searchBy s with byName => "client name" | byTags => "tags" end)
           +:+ "...";
         input_value := searchQuery s;
         searchBy_value := searchBy s;
         searchBy_items := [(byName, "Client Name"); (byTags, "Tags")];
         template_value := selectedTemplate s;
         template_items := emailTemplateOptions;
         send_disabled := negb (Js.truthy (selectedProposal s)) |}
      {| table_proposals := filteredProposals s;
         table_selectedProposalId := selectedProposal s |}.

(** The events a rendered body can raise.  The loading line and the empty
    panel carry none of the controls; a selector reports the value of one of
    its items; a disabled button reports no click; the table reports clicks
    and deletes on ids of its choosing.  The filter effect is React's to
    run. *)
Definition offers (b : Body) (e : Event) : bool :=
  match e with
  | Mounted => false
  | DepsChanged => true
  | SearchInput _ =>
      match b with SearchAndTable _ _ => true | _ => false end
  | SearchBySelected value =>
      match b with
      | SearchAndTable c _ =>
          existsb (fun o => match fst o, value with
                            | byName, byName | byTags, byTags => true
                            | _, _ => false
                            end) (searchBy_items c)
      | _ => false
      end
  | TemplateSelected value =>
      match b with
      | SearchAndTable c _ =>
          existsb (fun o => String.eqb (fst o) value) (template_items c)
      | _ => false
      end
  | DeleteClicked _ | RowClicked _ =>
      match b with SearchAndTable _ _ => true | _ => false end
  | SendEmailClicked =>
      match b with SearchAndTable c _ => negb (send_disabled c) | _ => false end
  end.

(** States reached through the page: the load effect runs once, on mount,
    and every later event is one the body on screen offers. *)
Inductive driven {World : Type}
    (fetchProposals : World -> (Err + list Proposal) * World)
    (deleteProposal : string -> World -> (Err + unit) * World)
  : Env -> Prop :=
| driven_mounted (w : World) :
    driven fetchProposals deleteProposal
      (step fetchProposals deleteProposal Mounted
         {| view := initialState; outside := w; emitted := [] |})
| driven_event (e : Event) (env : Env) :
    driven fetchProposals deleteProposal env ->
    offers (render (view env)) e = true ->
    driven fetchProposals deleteProposal
      (step fetchProposals deleteProposal e env).

(** ** A collaborator that gives out

    A second stand-in for the proposal service: it serves [budget] calls
    and rejects every call after that. *)
Module FlakyService.

Record Store := {
  rows : list Proposal;
  budget : nat;
}.

Definition fetchProposals (w : Store) : (Err + list Proposal) * Store :=
  match budget w with
  | O => (inl "Network Error", w)
  | S n => (inr (rows w), {| rows := rows w; budget := n |})
  end.

Definition deleteProposal (id' : string) (w : Store) : (Err + unit) * Store :=
  match budget w with
  | O => (inl "Request failed", w)
  | S n =>
      (inr tt,
       {| rows := List.filter (fun p => negb (String.eqb (id p) id')) (rows w);
          budget := n |})
  end.

End FlakyService.

(** ** Further notions *)

(** Every code unit of [s] is white space. *)
Fixpoint allWhite (s : string) : bool :=
  match s with
  | EmptyString => true
  | String c s' => Js.isWhiteSpace c && allWhite s'
  end.

Definition isToast (e : Effect) : bool :=
  match e with console_error _ _ => false | _ => true end.

(** The values the template selector can report. *)
Definition templateValues : list string := map fst emailTemplateOptions.

(** ** The model on concrete data *)

Example toLowerCase_acme : Js.toLowerCase "ACME Corp" = "acme corp".
Proof. reflexivity. Qed.

Example trim_acme : Js.trim "  Acme Corp  " = "Acme Corp".
Proof. reflexivity. Qed.

Example includes_mid : Js.includes "acme corp" "me c" = true.
Proof. reflexivity. Qed.

Example includes_none : Js.includes "acme corp" "mec" = false.
Proof. reflexivity. Qed.

Example memory_delete_then_filter :
  let p1 := {| id := "1"; clientName := "Acme"; clientEmail := Some "a@b.com"; tags := ["web"] |} in
  let p2 := {| id := "2"; clientName := "Globex"; clientEmail := None; tags := ["print"; "Web"] |} in
  let w := {| MemoryService.rows := [p1; p2]; MemoryService.offline := false |} in
  let env := run MemoryService.fetchProposals MemoryService.deleteProposal
               [Mounted; SearchBySelected byTags; SearchInput "WEB"; DepsChanged;
                RowClicked "2"; SendEmailClicked; DeleteClicked "1"]
               (MemoryService.mount initialState w) in
  proposals (view env) = [p2] /\
  filteredProposals (view env) = [p2] /\
  emitted env = [toast_error "No email address found for this client"].
Proof. vm_compute. auto. Qed.

(** ** Facts about the string primitives *)

Lemma includes_unfold s t :
  Js.includes s t =
  if String.prefix t s then true
  else match s with
       | EmptyString => false
       | String _ s' => Js.includes s' t
       end.
Proof. destruct s; reflexivity. Qed.

Lemma prefix_append t after : String.prefix t (t +:+ after) = true.
Proof.
  induction t as [|c t IH]; simpl.
  - destruct after; reflexivity.
  - destruct (ascii_dec c c); [exact IH | congruence].
Qed.

Lemma prefix_inv t s :
  String.prefix t s = true -> exists after, s = t +:+ after.
Proof.
  revert s. induction t as [|c t IH]; intros s H.
  - exists s. reflexivity.
  - destruct s as [|d s]; simpl in H; [discriminate|].
    destruct (ascii_dec c d) as [->|]; [|discriminate].
    destruct (IH _ H) as [after ->]. exists after. reflexivity.
Qed.

Lemma includes_occursIn s t : Js.includes s t = true <-> occursIn t s.
Proof.
  split.
  - induction s as [|c s IH]; rewrite includes_unfold;
      destruct (String.prefix t _) eqn:Hp; intros H.
    + apply prefix_inv in Hp as [after ->]. exists "", after. reflexivity.
    + discriminate.
    + apply prefix_inv in Hp as [after ->]. exists "", after. reflexivity.
    + destruct (IH H) as (before & after & ->).
      exists (String c before), after. reflexivity.
  - intros (before & after & ->).
    induction before as [|c before IH]; rewrite includes_unfold.
    + change ("" +:+ t +:+ after) with (t +:+ after).
      rewrite prefix_append. reflexivity.
    + destruct (String.prefix t _); [reflexivity | exact IH].
Qed.

Lemma includes_false_iff s t : Js.includes s t = false <-> ~ occursIn t s.
Proof.
  rewrite <- includes_occursIn. destruct (Js.includes s t); split; congruence.
Qed.

(** A piece of a concatenation occurs in it. *)
Lemma includes_middle before t after :
  Js.includes (before +:+ t +:+ after) t = true.
Proof. apply includes_occursIn. exists before, after. reflexivity. Qed.

Lemma toLowerCase_length s : String.length (Js.toLowerCase s) = String.length s.
Proof. induction s as [|c s IH]; simpl; [reflexivity | now rewrite IH]. Qed.

Lemma lowerChar_idempotent c : Js.lowerChar (Js.lowerChar c) = Js.lowerChar c.
Proof. destruct c as [[] [] [] [] [] [] [] []]; reflexivity. Qed.

Lemma toLowerCase_idempotent s :
  Js.toLowerCase (Js.toLowerCase s) = Js.toLowerCase s.
Proof.
  induction s as [|c s IH]; simpl; [reflexivity|].
  now rewrite lowerChar_idempotent, IH.
Qed.

Lemma truthyStr_true s : Js.truthyStr s = true <-> s <> "".
Proof. destruct s; simpl; split; congruence. Qed.

(** ** Facts about the filter *)

Lemma matchesQuery_fieldContains by_ query p :
  matchesQuery by_ (Js.toLowerCase query) p = true <-> fieldContains by_ query p.
Proof.
  destruct by_; simpl.
  - apply includes_occursIn.
  - rewrite existsb_exists. unfold containsIgnoringCase.
    split; intros (tag & Hin & H); exists tag; split; trivial;
      now apply includes_occursIn.
Qed.

Lemma filterProposals_blank by_ q ps :
  Js.trim q = "" -> filterProposals by_ q ps = ps.
Proof. intros H. unfold filterProposals. now rewrite H. Qed.

Lemma filterProposals_not_blank by_ q ps :
  Js.trim q <> "" ->
  filterProposals by_ q ps = List.filter (matchesQuery by_ (Js.toLowerCase q)) ps.
Proof.
  intros H. unfold filterProposals.
  destruct (String.eqb_spec (Js.trim q) ""); [contradiction | reflexivity].
Qed.

Lemma filter_sublist {A} (f : A -> bool) (l : list A) :
  sublist (List.filter f l) l.
Proof.
  induction l as [|x l IH]; simpl.
  - constructor.
  - destruct (f x); [apply sublist_skip | apply sublist_cons]; exact IH.
Qed.

Lemma filterProposals_sublist by_ q ps : sublist (filterProposals by_ q ps) ps.
Proof.
  unfold filterProposals. destruct (String.eqb _ _).
  - reflexivity.
  - apply filter_sublist.
Qed.

Lemma filterProposals_In by_ q ps p :
  Js.trim q <> "" ->
  In p (filterProposals by_ q ps) <-> In p ps /\ fieldContains by_ q p.
Proof.
  intros Hq. rewrite (filterProposals_not_blank _ _ _ Hq).
  rewrite filter_In, matchesQuery_fieldContains. reflexivity.
Qed.

(** C1 (as the code has it): a query that is blank once trimmed keeps the
    whole list; any other query is matched as typed, lower-cased but not
    trimmed, and the filtered list holds exactly the proposals whose chosen
    field contains it, case ignored, in their order. *)
Theorem filterProposals_matches_query_as_typed by_ q ps :
  (Js.trim q = "" -> filterProposals by_ q ps = ps) /\
  (Js.trim q <> "" ->
     filterProposals by_ q ps
       = List.filter (matchesQuery by_ (Js.toLowerCase q)) ps /\
     forall p, In p (filterProposals by_ q ps) <-> In p ps /\ fieldContains by_ q p).
Proof.
  split.
  - apply filterProposals_blank.
  - intros Hq. split.
    + now apply filterProposals_not_blank.
    + intros p. now apply filterProposals_In.
Qed.

Lemma filterProposals_matches_query_as_typed_witness :
  let acme := {| id := "1"; clientName := "Acme Corp"; clientEmail := None;
                 tags := ["web"] |} in
  let globex := {| id := "2"; clientName := "Globex"; clientEmail := None;
                   tags := ["print"] |} in
  (Js.trim "   " = "" /\ filterProposals byName "   " [acme; globex] = [acme; globex]) /\
  (Js.trim "me c" <> "" /\
   forall p, In p (filterProposals byName "me c" [acme; globex])
             <-> In p [acme; globex] /\ fieldContains byName "me c" p).
Proof.
  intros acme globex.
  destruct (filterProposals_matches_query_as_typed byName "   " [acme; globex])
    as [Hblank _].
  destruct (filterProposals_matches_query_as_typed byName "me c" [acme; globex])
    as [_ Htyped].
  assert (Hne : Js.trim "me c" <> "") by (vm_compute; discriminate).
  split; [split; [reflexivity | apply Hblank; reflexivity]|].
  split; [exact Hne | exact (proj2 (Htyped Hne))].
Defined.

(** C1, refuted as stated: the name "Acme" contains the trimmed query, yet
    the query typed with a space on either side filters the proposal out. *)
Lemma filterProposals_trims_only_the_guard :
  let acme := {| id := "1"; clientName := "Acme"; clientEmail := None;
                 tags := [] |} in
  Js.trim " Acme " = "Acme" /\
  fieldContains byName (Js.trim " Acme ") acme /\
  filterProposals_trimmed byName " Acme " [acme] = [acme] /\
  filterProposals byName " Acme " [acme] = [].
Proof.
  intros acme. repeat split; try reflexivity.
  exists "", "". reflexivity.
Qed.

(** C6: with a query that is not blank, filtering by tags keeps a proposal
    exactly when one of its tags contains the query, case ignored; a
    proposal none of whose tags does is dropped, whatever its client name. *)
Theorem filterProposals_by_tags q ps p :
  Js.trim q <> "" ->
  (In p (filterProposals byTags q ps)
     <-> In p ps /\ exists tag, In tag (tags p) /\ containsIgnoringCase tag q) /\
  ((forall tag, In tag (tags p) -> ~ containsIgnoringCase tag q) ->
     ~ In p (filterProposals byTags q ps)).
Proof.
  intros Hq. pose proof (filterProposals_In byTags q ps p Hq) as Hin. split.
  - exact Hin.
  - intros Hnone Hp. apply Hin in Hp as (_ & tag & Htag & Hc).
    exact (Hnone tag Htag Hc).
Qed.

Lemma filterProposals_by_tags_witness :
  let web := {| id := "1"; clientName := "Globex"; clientEmail := None;
                tags := ["print"; "WebDesign"] |} in
  let named := {| id := "2"; clientName := "Web Co"; clientEmail := None;
                  tags := ["print"] |} in
  Js.trim "web" <> "" /\
  containsIgnoringCase (clientName named) "web" /\
  In web (filterProposals byTags "web" [web; named]) /\
  ~ In named (filterProposals byTags "web" [web; named]).
Proof.
  intros web named.
  assert (Hne : Js.trim "web" <> "") by (vm_compute; discriminate).
  split; [exact Hne|].
  split; [exists "", " co"; reflexivity|].
  split.
  - apply (filterProposals_by_tags "web" [web; named] web Hne).
    split; [left; reflexivity|].
    exists "WebDesign". split; [right; left; reflexivity|].
    exists "", "design". reflexivity.
  - apply (filterProposals_by_tags "web" [web; named] named Hne).
    intros tag [<-|[]] Hc. apply includes_occursIn in Hc. discriminate Hc.
Defined.

(** ** What each handler does to its environment *)

Section Handlers.

Context {World : Type}.
Variable fetchProposals : World -> (Err + list Proposal) * World.
Variable deleteProposal : string -> World -> (Err + unit) * World.

Ltac run_handler :=
  cbv [loadProposals handleDelete handleProposalSelect handleSendEmail
       filterEffect tryCatch tryFinally await getState setState emit
       setProposals setFilteredProposals setLoading setSelectedProposal
       setSelectedTemplate setSearchQuery setSearchBy
       mbind mret M_bind M_ret]; cbn [view outside emitted fst snd].

Lemma loadProposals_resolved (env : @Env World) data w' :
  fetchProposals (outside env) = (inr data, w') ->
  loadProposals fetchProposals env =
    (inr tt,
     {| view := with_loading false
                  (with_filteredProposals data
                     (with_proposals data (with_loading true (view env))));
        outside := w'; emitted := emitted env |}).
Proof. intros H. run_handler. rewrite H. reflexivity. Qed.

Lemma loadProposals_rejected (env : @Env World) error w' :
  fetchProposals (outside env) = (inl error, w') ->
  loadProposals fetchProposals env =
    (inr tt,
     {| view := with_loading false (with_loading true (view env));
        outside := w';
        emitted := emitted env ++ [console_error "Failed to load proposals:" error] |}).
Proof. intros H. run_handler. rewrite H. reflexivity. Qed.

Lemma handleDelete_resolved (env : @Env World) id' w1 data w2 :
  deleteProposal id' (outside env) = (inr tt, w1) ->
  fetchProposals w1 = (inr data, w2) ->
  handleDelete fetchProposals deleteProposal id' env =
    (inr tt,
     {| view := with_filteredProposals data (with_proposals data (view env));
        outside := w2; emitted := emitted env |}).
Proof. intros H1 H2. run_handler. rewrite H1. cbn. rewrite H2. reflexivity. Qed.

Lemma handleDelete_delete_rejected (env : @Env World) id' error w1 :
  deleteProposal id' (outside env) = (inl error, w1) ->
  handleDelete fetchProposals deleteProposal id' env =
    (inr tt,
     {| view := view env; outside := w1;
        emitted := emitted env ++ [console_error "Failed to delete proposal:" error] |}).
Proof. intros H1. run_handler. rewrite H1. reflexivity. Qed.

Lemma handleDelete_fetch_rejected (env : @Env World) id' w1 error w2 :
  deleteProposal id' (outside env) = (inr tt, w1) ->
  fetchProposals w1 = (inl error, w2) ->
  handleDelete fetchProposals deleteProposal id' env =
    (inr tt,
     {| view := view env; outside := w2;
        emitted := emitted env ++ [console_error "Failed to delete proposal:" error] |}).
Proof. intros H1 H2. run_handler. rewrite H1. cbn. rewrite H2. reflexivity. Qed.

(** The three ways a delete can go. *)
Lemma handleDelete_cases (env : @Env World) id' :
  (exists w1 data w2,
      deleteProposal id' (outside env) = (inr tt, w1) /\
      fetchProposals w1 = (inr data, w2) /\
      view (snd (handleDelete fetchProposals deleteProposal id' env))
        = with_filteredProposals data (with_proposals data (view env))) \/
  view (snd (handleDelete fetchProposals deleteProposal id' env)) = view env.
Proof.
  destruct (deleteProposal id' (outside env)) as [[error|[]] w1] eqn:H1.
  - right. now rewrite (handleDelete_delete_rejected _ _ _ _ H1).
  - destruct (fetchProposals w1) as [[error|data] w2] eqn:H2.
    + right. now rewrite (handleDelete_fetch_rejected _ _ _ _ _ H1 H2).
    + left. exists w1, data, w2.
      now rewrite (handleDelete_resolved _ _ _ _ _ H1 H2).
Qed.

Lemma loadProposals_cases (env : @Env World) :
  (exists data,
      view (snd (loadProposals fetchProposals env))
        = with_loading false
            (with_filteredProposals data
               (with_proposals data (with_loading true (view env))))) \/
  view (snd (loadProposals fetchProposals env))
    = with_loading false (with_loading true (view env)).
Proof.
  destruct (fetchProposals (outside env)) as [[error|data] w'] eqn:H.
  - right. now rewrite (loadProposals_rejected _ _ _ H).
  - left. exists data. now rewrite (loadProposals_resolved _ _ _ H).
Qed.

Lemma filterEffect_run (env : @Env World) :
  filterEffect env =
    (inr tt,
     {| view := with_filteredProposals
                  (filterProposals (searchBy (view env)) (searchQuery (view env))
                     (proposals (view env)))
                  (view env);
        outside := outside env; emitted := emitted env |}).
Proof. reflexivity. Qed.

Lemma handleProposalSelect_run (env : @Env World) id' :
  handleProposalSelect id' env =
    (inr tt,
     {| view := with_selectedProposal
                  (if Js.strictEq id' (selectedProposal (view env))
                   then None else Some id')
                  (view env);
        outside := outside env; emitted := emitted env |}).
Proof. reflexivity. Qed.

Lemma handleSendEmail_run (env : @Env World) :
  handleSendEmail env =
    (inr tt,
     {| view := view env; outside := outside env;
        emitted := emitted env ++ [sendEmailNotice (view env)] |}).
Proof.
  run_handler. unfold sendEmailNotice.
  destruct (negb (Js.truthy (selectedProposal (view env)))); [reflexivity|].
  destruct (List.find _ _) as [p|]; [|reflexivity].
  destruct (negb (Js.truthy (clientEmail p))); reflexivity.
Qed.

End Handlers.

Lemma append_assoc (a b c : string) : (a +:+ b) +:+ c = a +:+ (b +:+ c).
Proof.
  induction a as [|x a IH]; [reflexivity|].
  change (String x ((a +:+ b) +:+ c) = String x (a +:+ (b +:+ c))).
  now rewrite IH.
Qed.

(** ** The send-email action *)

Section SendEmail.

Context {World : Type}.

(** The text of the success notice holds the address and the template
    value it was built from. *)
Lemma success_text_includes email template :
  let msg := "Email sent to " +:+ email +:+ " using " +:+ template +:+ " template" in
  Js.includes msg email = true /\ Js.includes msg template = true.
Proof.
  intros msg. split; apply includes_occursIn.
  - exists "Email sent to ", (" using " +:+ template +:+ " template"). reflexivity.
  - exists ("Email sent to " +:+ email +:+ " using "), " template".
    unfold msg. now rewrite !append_assoc.
Qed.

Lemma sendEmailNotice_success (s : State) selected p email :
  selectedProposal s = Some selected ->
  selected <> "" ->
  List.find (fun p => String.eqb (id p) selected) (proposals s) = Some p ->
  clientEmail p = Some email ->
  email <> "" ->
  sendEmailNotice s =
    toast_success ("Email sent to " +:+ email +:+ " using "
                   +:+ selectedTemplate s +:+ " template").
Proof.
  intros Hsel Hne Hfind Hmail Hmne. unfold sendEmailNotice.
  rewrite Hsel. cbn [Js.truthy Js.strictEq].
  apply truthyStr_true in Hne. rewrite Hne. cbn [negb].
  rewrite Hfind, Hmail. cbn [Js.truthy Js.toString].
  apply truthyStr_true in Hmne. now rewrite Hmne.
Qed.

(** C2 (as the code has it): with a selected proposal that is found and
    whose clientEmail is a non-empty string, the action raises one success
    notice, and its text contains the address and the value of the chosen
    template, the identifier kept in [selectedTemplate]. *)
Theorem handleSendEmail_success_names_email_and_template_value
    (env : @Env World) selected p email :
  selectedProposal (view env) = Some selected ->
  selected <> "" ->
  List.find (fun p => String.eqb (id p) selected) (proposals (view env)) = Some p ->
  clientEmail p = Some email ->
  email <> "" ->
  exists msg,
    emits handleSendEmail env [toast_success msg] /\
    Js.includes msg email = true /\
    Js.includes msg (selectedTemplate (view env)) = true.
Proof.
  intros Hsel Hne Hfind Hmail Hmne.
  exists ("Email sent to " +:+ email +:+ " using "
          +:+ selectedTemplate (view env) +:+ " template").
  split.
  - unfold emits. rewrite handleSendEmail_run. cbn [snd emitted].
    now rewrite (sendEmailNotice_success _ _ _ _ Hsel Hne Hfind Hmail Hmne).
  - apply success_text_includes.
Qed.

End SendEmail.

Lemma handleSendEmail_success_names_email_and_template_value_witness :
  exists msg,
    emits handleSendEmail
      (Sample.env (with_selectedTemplate "detailed"
                     (with_selectedProposal (Some "1") Sample.loaded)))
      [toast_success msg] /\
    Js.includes msg "a@b.com" = true /\
    Js.includes msg "detailed" = true.
Proof.
  apply (handleSendEmail_success_names_email_and_template_value
           (Sample.env (with_selectedTemplate "detailed"
                          (with_selectedProposal (Some "1") Sample.loaded)))
           "1" Sample.acme "a@b.com").
  - reflexivity.
  - discriminate.
  - reflexivity.
  - reflexivity.
  - discriminate.
Defined.

(** C2, refuted as stated: with clientEmail "a@b.com" and the template
    [detailed], whose label is "Detailed Breakdown", the success notice
    reads "... using detailed template" and does not contain the label. *)
Lemma handleSendEmail_notice_lacks_template_label :
  let env := Sample.env (with_selectedTemplate "detailed"
                           (with_selectedProposal (Some "1") Sample.loaded)) in
  templateLabel "detailed" = Some "Detailed Breakdown" /\
  emitted (snd (handleSendEmail env))
    = [toast_success "Email sent to a@b.com using detailed template"] /\
  Js.includes "Email sent to a@b.com using detailed template"
              "Detailed Breakdown" = false.
Proof. intros env. repeat split. Qed.

Section SendEmailChain.

Context {World : Type}.

Lemma sendEmailNotice_cases (s : State) :
  (hasSelection s = false /\
   sendEmailNotice s = toast "Please select a proposal to send") \/
  (hasSelection s = true /\ findSelected s = None /\
   sendEmailNotice s = toast_error "Proposal not found") \/
  (exists p, hasSelection s = true /\ findSelected s = Some p /\
             hasEmail p = false /\
             sendEmailNotice s = toast_error "No email address found for this client") \/
  (exists p, hasSelection s = true /\ findSelected s = Some p /\
             hasEmail p = true /\
             sendEmailNotice s =
               toast_success ("Email sent to " +:+ Js.toString (clientEmail p)
                              +:+ " using " +:+ selectedTemplate s +:+ " template")).
Proof.
  unfold sendEmailNotice, hasSelection, findSelected, hasEmail.
  destruct (Js.truthy (selectedProposal s)); cbn [negb]; [|now left].
  right. destruct (List.find _ _) as [p|]; [|now left].
  right. destruct (Js.truthy (clientEmail p)) eqn:Hm; cbn [negb].
  - right. exists p. now rewrite Hm.
  - left. exists p. now rewrite Hm.
Qed.

(** C3: the send-email action runs three checks in order and stops at the
    first that fails, each time with exactly one notification: a plain
    notice when nothing is selected, the error "Proposal not found" when
    the selected id is not in [proposals], the error "No email address
    found for this client" when the proposal found has no clientEmail.
    The three are pairwise different, none is a success notice, and a
    success notice is raised only when the three checks pass, in which
    case it is the one notification.  A check reads its cell as the code
    does: [null] and the empty string both count as absent. *)
Theorem handleSendEmail_validation_chain (env : @Env World) :
  let s := view env in
  (selectedProposal s = None ->
     emits handleSendEmail env [toast "Please select a proposal to send"]) /\
  (hasSelection s = false ->
     emits handleSendEmail env [toast "Please select a proposal to send"]) /\
  (hasSelection s = true -> findSelected s = None ->
     emits handleSendEmail env [toast_error "Proposal not found"]) /\
  (forall p, hasSelection s = true -> findSelected s = Some p ->
     hasEmail p = false ->
     emits handleSendEmail env
       [toast_error "No email address found for this client"]) /\
  (forall p, hasSelection s = true -> findSelected s = Some p ->
     hasEmail p = true ->
     exists msg, emits handleSendEmail env [toast_success msg]) /\
  (forall l, emits handleSendEmail env l ->
     Exists (fun e => isSuccess e = true) l ->
     hasSelection s = true /\
     exists p, findSelected s = Some p /\ hasEmail p = true) /\
  (toast "Please select a proposal to send" <> toast_error "Proposal not found" /\
   toast "Please select a proposal to send"
     <> toast_error "No email address found for this client" /\
   toast_error "Proposal not found"
     <> toast_error "No email address found for this client").
Proof.
  intros s. unfold emits. rewrite handleSendEmail_run. cbn [snd emitted].
  fold s.
  assert (Hnone : selectedProposal s = None -> hasSelection s = false)
    by (unfold hasSelection; now intros ->).
  destruct (sendEmailNotice_cases s)
    as [(Hs & ->) | [(Hs & Hf & ->) | [(p & Hs & Hf & Hm & ->) | (p & Hs & Hf & Hm & ->)]]].
  all: repeat apply conj; try discriminate.
  all: try (intros; congruence).
  all: try (intros Hn; apply Hnone in Hn; congruence).
  all: try (intros q ? Hq ?; assert (q = p) by congruence; subst q; congruence).
  all: try (intros q ? Hq ?; eexists; reflexivity).
  all: try (intros l Hl Hex; apply app_inv_head in Hl; subst l;
            apply Exists_cons in Hex as [Hex|Hex];
            [ discriminate Hex || (split; [assumption | exists p; now split])
            | inversion Hex ]).
Qed.

End SendEmailChain.

Lemma handleSendEmail_validation_chain_witness :
  let selecting id' := Sample.env (with_selectedProposal id' Sample.loaded) in
  emits handleSendEmail (selecting None)
    [toast "Please select a proposal to send"] /\
  emits handleSendEmail (selecting (Some "9")) [toast_error "Proposal not found"] /\
  emits handleSendEmail (selecting (Some "2"))
    [toast_error "No email address found for this client"] /\
  (exists msg, emits handleSendEmail (selecting (Some "1")) [toast_success msg]).
Proof.
  intros selecting.
  destruct (handleSendEmail_validation_chain (selecting None))
    as (Hnull & _).
  destruct (handleSendEmail_validation_chain (selecting (Some "9")))
    as (_ & _ & Hmissing & _).
  destruct (handleSendEmail_validation_chain (selecting (Some "2")))
    as (_ & _ & _ & Hnomail & _).
  destruct (handleSendEmail_validation_chain (selecting (Some "1")))
    as (_ & _ & _ & _ & Hsent & _).
  split; [apply Hnull; reflexivity|].
  split; [apply Hmissing; reflexivity|].
  split; [apply (Hnomail Sample.globex); reflexivity|].
  apply (Hsent Sample.acme); reflexivity.
Defined.

Section Frames.

Context {World : Type}.
Variable fetchProposals : World -> (Err + list Proposal) * World.
Variable deleteProposal : string -> World -> (Err + unit) * World.

(** C9: whichever branch the send-email action takes, every cell of the
    component is left as it was, the collaborator is not called, and the
    one thing that happens is a single toast. *)
Theorem handleSendEmail_changes_no_state (env : @Env World) :
  let env' := snd (handleSendEmail env) in
  fst (handleSendEmail env) = inr tt /\
  proposals (view env') = proposals (view env) /\
  filteredProposals (view env') = filteredProposals (view env) /\
  selectedProposal (view env') = selectedProposal (view env) /\
  selectedTemplate (view env') = selectedTemplate (view env) /\
  searchQuery (view env') = searchQuery (view env) /\
  searchBy (view env') = searchBy (view env) /\
  view env' = view env /\
  outside env' = outside env /\
  exists msg,
    (emits handleSendEmail env [toast msg] \/
     emits handleSendEmail env [toast_error msg] \/
     emits handleSendEmail env [toast_success msg]).
Proof.
  unfold emits. rewrite handleSendEmail_run. cbn [fst snd view outside emitted].
  repeat (split; [reflexivity|]).
  destruct (sendEmailNotice_cases (view env))
    as [(_ & ->) | [(_ & _ & ->) | [(p & _ & _ & _ & ->) | (p & _ & _ & _ & ->)]]];
    eexists; eauto.
Qed.

(** A delete writes at most the two list cells. *)
Lemma handleDelete_other_cells (env : @Env World) id' :
  let env' := snd (handleDelete fetchProposals deleteProposal id' env) in
  loading (view env') = loading (view env) /\
  selectedProposal (view env') = selectedProposal (view env) /\
  selectedTemplate (view env') = selectedTemplate (view env) /\
  searchQuery (view env') = searchQuery (view env) /\
  searchBy (view env') = searchBy (view env).
Proof.
  cbv zeta.
  destruct (handleDelete_cases fetchProposals deleteProposal env id')
    as [(w1 & data & w2 & _ & _ & ->) | ->]; repeat split.
Qed.

(** C7: when the delete is acknowledged and the fetch that follows
    resolves, [proposals] and [filteredProposals] both become the
    collection just fetched, whatever the cells held before; the query and
    the selector are not consulted. *)
Theorem handleDelete_replaces_both_lists (env : @Env World) id' w1 data w2 :
  deleteProposal id' (outside env) = (inr tt, w1) ->
  fetchProposals w1 = (inr data, w2) ->
  let env' := snd (handleDelete fetchProposals deleteProposal id' env) in
  fst (handleDelete fetchProposals deleteProposal id' env) = inr tt /\
  proposals (view env') = data /\
  filteredProposals (view env') = data /\
  outside env' = w2 /\
  emitted env' = emitted env.
Proof.
  intros Hdel Hfetch. cbv zeta.
  rewrite (handleDelete_resolved _ _ _ _ _ _ _ Hdel Hfetch).
  repeat split.
Qed.

(** C8: the effect run on mount ends normally with [loading] cleared.  If
    the fetch resolves, both lists are the fetched collection and nothing
    is emitted; if it rejects, both lists stay empty and the one thing
    emitted is a [console.error], no toast. *)
Theorem loadProposals_on_mount (w : World) :
  let env := {| view := initialState; outside := w; emitted := [] |} in
  let env' := snd (loadProposals fetchProposals env) in
  fst (loadProposals fetchProposals env) = inr tt /\
  loading (view env') = false /\
  match fst (fetchProposals w) with
  | inr data =>
      proposals (view env') = data /\
      filteredProposals (view env') = data /\
      emitted env' = []
  | inl error =>
      proposals (view env') = [] /\
      filteredProposals (view env') = [] /\
      emitted env' = [console_error "Failed to load proposals:" error]
  end.
Proof.
  cbv zeta.
  destruct (fetchProposals w) as [[error|data] w'] eqn:H; cbn [fst].
  - rewrite (loadProposals_rejected fetchProposals
               {| view := initialState; outside := w; emitted := [] |} error w' H).
    repeat split.
  - rewrite (loadProposals_resolved fetchProposals
               {| view := initialState; outside := w; emitted := [] |} data w' H).
    repeat split.
Qed.

End Frames.

Lemma handleDelete_replaces_both_lists_witness :
  let before :=
    Sample.env (with_filteredProposals [Sample.globex]
                  (with_searchQuery "glo" Sample.loaded)) in
  let after :=
    snd (handleDelete MemoryService.fetchProposals MemoryService.deleteProposal
           "2" before) in
  proposals (view after) = [Sample.acme] /\
  filteredProposals (view after) = [Sample.acme].
Proof.
  intros before after.
  destruct (handleDelete_replaces_both_lists
              MemoryService.fetchProposals MemoryService.deleteProposal
              before "2"
              {| MemoryService.rows := [Sample.acme]; MemoryService.offline := false |}
              [Sample.acme]
              {| MemoryService.rows := [Sample.acme]; MemoryService.offline := false |})
    as (_ & Hp & Hf & _).
  - reflexivity.
  - reflexivity.
  - split; [exact Hp | exact Hf].
Defined.

(** ** Selection *)

Lemma strictEq_true a b : Js.strictEq a b = true <-> b = Some a.
Proof.
  destruct b as [s|]; simpl.
  - rewrite String.eqb_eq. split; congruence.
  - split; discriminate.
Qed.

Lemma selectionAfterClick_eq {World} (env : @Env World) id' :
  selectionAfterClick id' env =
  if Js.strictEq id' (selectedProposal (view env)) then None else Some id'.
Proof. reflexivity. Qed.

(** C5 (as the code has it): a click on the selected row clears the
    selection; a click on any other row makes that row the selection, in
    place of what was selected, and a second click on it then clears the
    selection.  After a click the cell is empty or holds the id clicked,
    never two ids. *)
Theorem handleProposalSelect_toggles {World} (env : @Env World) id' :
  (selectedProposal (view env) = Some id' -> selectionAfterClick id' env = None) /\
  (selectedProposal (view env) <> Some id' ->
     selectionAfterClick id' env = Some id' /\
     selectionAfterClick id' (snd (handleProposalSelect id' env)) = None) /\
  (selectionAfterClick id' env = None \/ selectionAfterClick id' env = Some id').
Proof.
  rewrite !selectionAfterClick_eq.
  destruct (Js.strictEq id' (selectedProposal (view env))) eqn:Heq.
  - apply strictEq_true in Heq.
    split; [reflexivity|]. split; [intros Hne; contradiction | now left].
  - assert (Hne : selectedProposal (view env) <> Some id').
    { intros Hsel. apply strictEq_true in Hsel. congruence. }
    split; [intros Hsel; contradiction|]. split; [|now right].
    intros _. split; [reflexivity|].
    rewrite handleProposalSelect_run.
    cbn [snd view with_selectedProposal selectedProposal].
    rewrite Heq. cbn [Js.strictEq]. now rewrite String.eqb_refl.
Qed.

Lemma handleProposalSelect_toggles_witness :
  let selecting id' := Sample.env (with_selectedProposal id' Sample.loaded) in
  selectionAfterClick "1" (selecting (Some "1")) = None /\
  selectionAfterClick "1" (selecting (Some "2")) = Some "1" /\
  selectionAfterClick "1" (snd (handleProposalSelect "1" (selecting (Some "2")))) = None /\
  selectionAfterClick "1" (snd (handleProposalSelect "1" (selecting None))) = None.
Proof.
  intros selecting.
  destruct (handleProposalSelect_toggles (selecting (Some "1")) "1") as (Hsame & _).
  destruct (handleProposalSelect_toggles (selecting (Some "2")) "1") as (_ & Hother & _).
  destruct (handleProposalSelect_toggles (selecting None) "1") as (_ & Hnone & _).
  split; [apply Hsame; reflexivity|].
  split; [apply Hother; discriminate|].
  split; [apply Hother; discriminate|].
  apply Hnone; discriminate.
Defined.

(** C5, refuted as stated: with row "1" selected, two clicks on row "1" in
    a row leave row "1" selected, not an empty selection. *)
Lemma handleProposalSelect_twice_on_selected_row :
  let env := Sample.env (with_selectedProposal (Some "1") Sample.loaded) in
  selectedProposal (view env) = Some "1" /\
  selectionAfterClick "1" env = None /\
  selectionAfterClick "1" (snd (handleProposalSelect "1" env)) = Some "1".
Proof. intros env. repeat split. Qed.

(** ** Delete and the selection *)

Lemma handleSendEmail_dangling {World} (env : @Env World) :
  hasSelection (view env) = true ->
  findSelected (view env) = None ->
  emits handleSendEmail env [toast_error "Proposal not found"].
Proof.
  intros Hs Hf. unfold emits. rewrite handleSendEmail_run. cbn [snd emitted].
  destruct (sendEmailNotice_cases (view env))
    as [(Hs' & _) | [(_ & _ & ->) | [(p & _ & Hf' & _) | (p & _ & Hf' & _)]]];
    congruence.
Qed.

(** C10: a delete leaves [selectedProposal] as it was, also when the id
    deleted is the selected one.  The selected id may then name no element
    of [proposals], as it does for the sample store once row "1" is deleted
    while selected; on such a state the send-email action answers with the
    error "Proposal not found". *)
Theorem handleDelete_keeps_selection :
  (forall World fetchProposals deleteProposal (env : @Env World) id',
      selectedProposal (view (snd (handleDelete fetchProposals deleteProposal id' env)))
      = selectedProposal (view env)) /\
  (forall World fetchProposals deleteProposal (env : @Env World) id',
      let env' := snd (handleDelete fetchProposals deleteProposal id' env) in
      hasSelection (view env') = true ->
      findSelected (view env') = None ->
      emits handleSendEmail env' [toast_error "Proposal not found"]) /\
  (let env := Sample.env (with_selectedProposal (Some "1") Sample.loaded) in
   let env' := snd (handleDelete MemoryService.fetchProposals
                      MemoryService.deleteProposal "1" env) in
   findSelected (view env) = Some Sample.acme /\
   selectedProposal (view env') = Some "1" /\
   proposals (view env') = [Sample.globex] /\
   findSelected (view env') = None).
Proof.
  split; [|split].
  - intros World fetchProposals deleteProposal env id'.
    apply (handleDelete_other_cells fetchProposals deleteProposal env id').
  - intros World fetchProposals deleteProposal env id' env'.
    apply handleSendEmail_dangling.
  - repeat split.
Qed.

Lemma handleDelete_keeps_selection_witness :
  let env := Sample.env (with_selectedProposal (Some "1") Sample.loaded) in
  let env' := snd (handleDelete MemoryService.fetchProposals
                     MemoryService.deleteProposal "1" env) in
  selectedProposal (view env') = Some "1" /\
  emits handleSendEmail env' [toast_error "Proposal not found"].
Proof.
  intros env env'.
  destruct handleDelete_keeps_selection as (Hkeep & Hdangling & _).
  split.
  - unfold env'. rewrite Hkeep. reflexivity.
  - apply (Hdangling _ MemoryService.fetchProposals MemoryService.deleteProposal
             env "1"); reflexivity.
Defined.

(** ** The filtered list is a subsequence of the full list *)

Section Invariant.

Context {World : Type}.
Variable fetchProposals : World -> (Err + list Proposal) * World.
Variable deleteProposal : string -> World -> (Err + unit) * World.

Lemma step_inOrder (e : Event) (env : @Env World) :
  inOrder (view env) ->
  inOrder (view (step fetchProposals deleteProposal e env)).
Proof.
  intros Hinv. unfold step. destruct e; cbn [dispatch].
  - destruct (loadProposals_cases fetchProposals env) as [[data ->] | ->].
    + unfold inOrder. reflexivity.
    + exact Hinv.
  - rewrite filterEffect_run. apply filterProposals_sublist.
  - exact Hinv.
  - exact Hinv.
  - exact Hinv.
  - destruct (handleDelete_cases fetchProposals deleteProposal env id')
      as [(w1 & data & w2 & _ & _ & ->) | ->].
    + unfold inOrder. reflexivity.
    + exact Hinv.
  - exact Hinv.
  - rewrite handleSendEmail_run. exact Hinv.
Qed.

Lemma reachable_inOrder (env : @Env World) :
  reachable fetchProposals deleteProposal env -> inOrder (view env).
Proof.
  induction 1 as [w | e env _ IH].
  - unfold inOrder. reflexivity.
  - now apply step_inOrder.
Qed.

End Invariant.

(** C4: whatever the selector and the query, the filter returns a
    subsequence of the list it is given, elements in their order, and the
    whole list for the empty query.  In every state the component reaches
    [filteredProposals] is such a subsequence of [proposals]: after the
    load, where the two lists are equal; after each run of the filter
    effect, where they are equal when the query is empty; and after a
    delete, which either makes them equal or leaves both as they were. *)
Theorem filteredProposals_is_subsequence :
  (forall by_ q ps, sublist (filterProposals by_ q ps) ps) /\
  (forall by_ ps, filterProposals by_ "" ps = ps) /\
  (forall World fetchProposals deleteProposal (env : @Env World),
      reachable fetchProposals deleteProposal env -> inOrder (view env)) /\
  (forall World fetchProposals deleteProposal (w : World),
      let after := view (step fetchProposals deleteProposal Mounted
                           {| view := initialState; outside := w; emitted := [] |}) in
      filteredProposals after = proposals after) /\
  (forall World fetchProposals deleteProposal (env : @Env World),
      let after := view (step fetchProposals deleteProposal DepsChanged env) in
      inOrder after /\
      proposals after = proposals (view env) /\
      (searchQuery (view env) = "" -> filteredProposals after = proposals after)) /\
  (forall World fetchProposals deleteProposal (env : @Env World) id',
      let after := view (step fetchProposals deleteProposal (DeleteClicked id') env) in
      filteredProposals after = proposals after \/
      (proposals after = proposals (view env) /\
       filteredProposals after = filteredProposals (view env))).
Proof.
  split; [exact filterProposals_sublist|].
  split; [intros by_ ps; reflexivity|].
  split; [intros World f d env; apply reachable_inOrder|].
  split; [|split].
  - intros World f d w. cbv zeta. unfold step. cbn [dispatch].
    destruct (loadProposals_cases f {| view := initialState; outside := w; emitted := [] |})
      as [[data ->] | ->]; reflexivity.
  - intros World f d env. cbv zeta. unfold step. cbn [dispatch].
    rewrite filterEffect_run.
    cbn [snd view with_filteredProposals filteredProposals proposals].
    split; [apply filterProposals_sublist|]. split; [reflexivity|].
    intros ->. reflexivity.
  - intros World f d env id'. cbv zeta. unfold step. cbn [dispatch].
    destruct (handleDelete_cases f d env id')
      as [(w1 & data & w2 & _ & _ & ->) | ->]; [left | right]; auto.
Qed.

Lemma filteredProposals_is_subsequence_witness :
  let go := step MemoryService.fetchProposals MemoryService.deleteProposal in
  let env :=
    go DepsChanged
      (go (SearchInput "WEB")
         (go (SearchBySelected byTags)
            (go Mounted (MemoryService.mount initialState Sample.store)))) in
  proposals (view env) = [Sample.acme; Sample.globex] /\
  filteredProposals (view env) = [Sample.acme; Sample.globex] /\
  inOrder (view (go (SearchInput "glo") (go (SearchBySelected byName) env))) /\
  inOrder (view (go DepsChanged (go (SearchInput "glo") (go (SearchBySelected byName) env)))).
Proof.
  intros go env.
  destruct filteredProposals_is_subsequence as (_ & _ & Hreach & _).
  split; [reflexivity|]. split; [reflexivity|].
  split.
  - apply (Hreach _ MemoryService.fetchProposals MemoryService.deleteProposal).
    do 6 apply reachable_step. apply reachable_init.
  - apply (Hreach _ MemoryService.fetchProposals MemoryService.deleteProposal).
    do 7 apply reachable_step. apply reachable_init.
Defined.

(** ** Blank queries and letter case *)

Lemma trimStart_empty s : Js.trimStart s = "" <-> allWhite s = true.
Proof.
  induction s as [|c s IH]; simpl; [tauto|].
  destruct (Js.isWhiteSpace c); simpl; [exact IH|].
  split; discriminate.
Qed.

Lemma trimEnd_empty s : Js.trimEnd s = "" <-> allWhite s = true.
Proof.
  induction s as [|c s IH]; simpl; [tauto|].
  destruct (Js.trimEnd s) as [|d t] eqn:Ht.
  - destruct (Js.isWhiteSpace c); simpl.
    + split; [intros _; now apply IH | reflexivity].
    + split; discriminate.
  - split; [discriminate|].
    intros H. apply andb_true_iff in H as [_ H]. apply IH in H. discriminate.
Qed.

Lemma allWhite_trimStart s : allWhite (Js.trimStart s) = allWhite s.
Proof.
  induction s as [|c s IH]; simpl; [reflexivity|].
  destruct (Js.isWhiteSpace c) eqn:Hc; simpl; [exact IH | now rewrite Hc].
Qed.

(** [trim] leaves nothing exactly when the string is white space only. *)
Lemma trim_empty s : Js.trim s = "" <-> allWhite s = true.
Proof. unfold Js.trim. now rewrite trimEnd_empty, allWhite_trimStart. Qed.

Lemma trim_not_empty s : Js.trim s <> "" <-> allWhite s = false.
Proof.
  rewrite trim_empty. destruct (allWhite s); split; congruence.
Qed.

Lemma isWhiteSpace_lowerChar c : Js.isWhiteSpace (Js.lowerChar c) = Js.isWhiteSpace c.
Proof. destruct c as [[] [] [] [] [] [] [] []]; reflexivity. Qed.

Lemma allWhite_toLowerCase s : allWhite (Js.toLowerCase s) = allWhite s.
Proof.
  induction s as [|c s IH]; simpl; [reflexivity|].
  now rewrite isWhiteSpace_lowerChar, IH.
Qed.



Lemma append_empty_r (a : string) : a +:+ "" = a.
Proof.
  induction a as [|c a IH]; [reflexivity|].
  change (String c (a +:+ "") = String c a). now rewrite IH.
Qed.

Lemma occursIn_refl s : occursIn s s.
Proof. exists "", "". symmetry. apply append_empty_r. Qed.






(** X2: the case of the letters typed does not matter.  Two queries with
    the same lower-casing are blank together and, when not blank, keep the
    same rows. *)
Theorem filterProposals_query_case by_ q1 q2 ps :
  Js.toLowerCase q1 = Js.toLowerCase q2 ->
  filterProposals by_ q1 ps = filterProposals by_ q2 ps.
Proof.
  intros Hlow.
  assert (Hw : allWhite q1 = allWhite q2).
  { now rewrite <- (allWhite_toLowerCase q1), <- (allWhite_toLowerCase q2), Hlow. }
  destruct (allWhite q1) eqn:H1; symmetry in Hw.
  - rewrite !filterProposals_blank; trivial; now apply trim_empty.
  - rewrite !filterProposals_not_blank; try (now apply trim_not_empty).
    now rewrite Hlow.
Qed.

Lemma filterProposals_query_case_witness :
  filterProposals byTags "WEB" [Sample.acme; Sample.globex]
  = filterProposals byTags "wEb" [Sample.acme; Sample.globex].
Proof.
  apply (filterProposals_query_case byTags "WEB" "wEb"). reflexivity.
Defined.

(** X3: searching for what a row shows finds the row.  A proposal of the
    list is kept by the name filter for its own client name, and by the tag
    filter for any one of its tags, in whatever letter case the query is
    typed, provided that text is not blank. *)
Theorem filterProposals_finds_own_text q p ps :
  In p ps ->
  Js.trim q <> "" ->
  (Js.toLowerCase q = Js.toLowerCase (clientName p) ->
     In p (filterProposals byName q ps)) /\
  (forall tag, In tag (tags p) ->
     Js.toLowerCase q = Js.toLowerCase tag ->
     In p (filterProposals byTags q ps)).
Proof.
  intros Hin Hq. split.
  - intros Hlow. apply (filterProposals_In byName q ps p Hq). split; trivial.
    simpl. unfold containsIgnoringCase. rewrite Hlow. apply occursIn_refl.
  - intros tag Htag Hlow. apply (filterProposals_In byTags q ps p Hq). split; trivial.
    exists tag. split; trivial.
    unfold containsIgnoringCase. rewrite Hlow. apply occursIn_refl.
Qed.

Lemma filterProposals_finds_own_text_witness :
  In Sample.globex (filterProposals byName "GLOBEX" [Sample.acme; Sample.globex]) /\
  In Sample.globex (filterProposals byTags "web" [Sample.acme; Sample.globex]).
Proof.
  destruct (filterProposals_finds_own_text "GLOBEX" Sample.globex
              [Sample.acme; Sample.globex]) as [Hname _].
  { right; left; reflexivity. }
  { vm_compute; discriminate. }
  destruct (filterProposals_finds_own_text "web" Sample.globex
              [Sample.acme; Sample.globex]) as [_ Htag].
  { right; left; reflexivity. }
  { vm_compute; discriminate. }
  split; [apply Hname; reflexivity|].
  apply (Htag "Web"); [right; left; reflexivity | reflexivity].
Defined.

(** ** Events, one at a time *)

Section Steps.

Context {World : Type}.
Variable fetchProposals : World -> (Err + list Proposal) * World.
Variable deleteProposal : string -> World -> (Err + unit) * World.

(** What an event adds to the log: nothing, one [console.error] (load and
    delete only), or the one notice of the send button. *)
Lemma step_effects (e : Event) (env : @Env World) :
  fst (dispatch fetchProposals deleteProposal e env) = inr tt /\
  exists l,
    emitted (step fetchProposals deleteProposal e env) = emitted env ++ l /\
    (l = [] \/
     (exists m error, l = [console_error m error] /\
        (e = Mounted \/ exists i, e = DeleteClicked i)) \/
     (e = SendEmailClicked /\ l = [sendEmailNotice (view env)])).
Proof.
  unfold step. destruct e; cbn [dispatch].
  - destruct (fetchProposals (outside env)) as [[error|data] w'] eqn:H.
    + rewrite (loadProposals_rejected _ _ _ _ H). split; [reflexivity|].
      eexists. split; [reflexivity|]. right. left. eauto.
    + rewrite (loadProposals_resolved _ _ _ _ H). split; [reflexivity|].
      exists []. split; [cbn; now rewrite app_nil_r | now left].
  - split; [reflexivity|]. exists []. split; [cbn; now rewrite app_nil_r | now left].
  - split; [reflexivity|]. exists []. split; [cbn; now rewrite app_nil_r | now left].
  - split; [reflexivity|]. exists []. split; [cbn; now rewrite app_nil_r | now left].
  - split; [reflexivity|]. exists []. split; [cbn; now rewrite app_nil_r | now left].
  - destruct (deleteProposal id' (outside env)) as [[error|[]] w1] eqn:H1.
    + rewrite (handleDelete_delete_rejected _ _ _ _ _ _ H1). split; [reflexivity|].
      eexists. split; [reflexivity|]. right. left. eauto 6.
    + destruct (fetchProposals w1) as [[error|data] w2] eqn:H2.
      * rewrite (handleDelete_fetch_rejected _ _ _ _ _ _ _ H1 H2).
        split; [reflexivity|].
        eexists. split; [reflexivity|]. right. left. eauto 6.
      * rewrite (handleDelete_resolved _ _ _ _ _ _ _ H1 H2). split; [reflexivity|].
        exists []. split; [cbn; now rewrite app_nil_r | now left].
  - split; [reflexivity|]. exists []. split; [cbn; now rewrite app_nil_r | now left].
  - rewrite handleSendEmail_run. split; [reflexivity|].
    eexists. split; [reflexivity|]. right. right. now split.
Qed.

(** X4: no event ends in a throw, whatever the collaborator answers; an
    event logs at most one entry; and a toast is only ever raised by the
    send button: a load or a delete that fails is reported to the console
    alone. *)
Theorem dispatch_catches_every_rejection (e : Event) (env : @Env World) :
  fst (dispatch fetchProposals deleteProposal e env) = inr tt /\
  exists l,
    emitted (step fetchProposals deleteProposal e env) = emitted env ++ l /\
    length l <= 1 /\
    (existsb isToast l = true -> e = SendEmailClicked).
Proof.
  destruct (step_effects e env) as (Hret & l & Hl & Hcases).
  split; [exact Hret|]. exists l. split; [exact Hl|].
  destruct Hcases as [-> | [(m & error & -> & _) | (-> & ->)]]; cbn.
  - split; [lia | discriminate].
  - split; [lia | discriminate].
  - split; [lia | reflexivity].
Qed.

(** X5: a delete that fails changes no cell.  When the collaborator rejects
    the delete, the fetch is not attempted; when it acknowledges the delete
    and rejects the fetch that follows, both lists keep the rows they had,
    the deleted one among them.  In both cases the handler returns normally
    and logs one "Failed to delete proposal:" entry with the reason. *)
Theorem handleDelete_rejected_changes_no_cell (env : @Env World) id' :
  (forall error w1,
      deleteProposal id' (outside env) = (inl error, w1) ->
      handleDelete fetchProposals deleteProposal id' env =
        (inr tt,
         {| view := view env; outside := w1;
            emitted := emitted env
                       ++ [console_error "Failed to delete proposal:" error] |})) /\
  (forall w1 error w2,
      deleteProposal id' (outside env) = (inr tt, w1) ->
      fetchProposals w1 = (inl error, w2) ->
      handleDelete fetchProposals deleteProposal id' env =
        (inr tt,
         {| view := view env; outside := w2;
            emitted := emitted env
                       ++ [console_error "Failed to delete proposal:" error] |})).
Proof.
  split.
  - intros error w1. apply handleDelete_delete_rejected.
  - intros w1 error w2. apply handleDelete_fetch_rejected.
Qed.

Lemma step_loading (e : Event) (env : @Env World) :
  e <> Mounted ->
  loading (view (step fetchProposals deleteProposal e env)) = loading (view env).
Proof.
  intros He. unfold step. destruct e; cbn [dispatch]; try reflexivity.
  - contradiction.
  - apply (handleDelete_other_cells fetchProposals deleteProposal env id').
  - now rewrite handleSendEmail_run.
Qed.

Lemma step_mounted_loading (env : @Env World) :
  loading (view (step fetchProposals deleteProposal Mounted env)) = false.
Proof.
  unfold step. cbn [dispatch].
  destruct (loadProposals_cases fetchProposals env) as [[data ->] | ->]; reflexivity.
Qed.

(** X6: the loading flag is cleared by the load, whether the fetch resolves
    or rejects, and no other event writes it: a delete, which also fetches,
    never brings the loading line back. *)
Theorem loading_only_written_by_load (e : Event) (env : @Env World) :
  loading (view (step fetchProposals deleteProposal Mounted env)) = false /\
  (e <> Mounted ->
     loading (view (step fetchProposals deleteProposal e env)) = loading (view env)).
Proof. split; [apply step_mounted_loading | apply step_loading]. Qed.

Lemma step_proposals (e : Event) (env : @Env World) :
  e <> Mounted -> (forall i, e <> DeleteClicked i) ->
  proposals (view (step fetchProposals deleteProposal e env)) = proposals (view env).
Proof.
  intros Hm Hd. unfold step. destruct e; cbn [dispatch]; try reflexivity.
  - contradiction.
  - now destruct (Hd id').
  - now rewrite handleSendEmail_run.
Qed.

Lemma step_selectedTemplate (e : Event) (env : @Env World) :
  selectedTemplate (view (step fetchProposals deleteProposal e env)) =
  match e with
  | TemplateSelected value => value
  | _ => selectedTemplate (view env)
  end.
Proof.
  unfold step. destruct e; cbn [dispatch]; try reflexivity.
  - destruct (loadProposals_cases fetchProposals env) as [[data ->] | ->]; reflexivity.
  - apply (handleDelete_other_cells fetchProposals deleteProposal env id').
  - now rewrite handleSendEmail_run.
Qed.

(** X7: once the filter effect has run after a delete that went through,
    the query still typed is applied to the fresh collection: [proposals]
    is what was fetched and [filteredProposals] is its filter. *)
Theorem delete_then_filter_effect (env : @Env World) id' w1 data w2 :
  deleteProposal id' (outside env) = (inr tt, w1) ->
  fetchProposals w1 = (inr data, w2) ->
  let env' := step fetchProposals deleteProposal DepsChanged
                (step fetchProposals deleteProposal (DeleteClicked id') env) in
  proposals (view env') = data /\
  filteredProposals (view env')
    = filterProposals (searchBy (view env)) (searchQuery (view env)) data /\
  searchQuery (view env') = searchQuery (view env) /\
  searchBy (view env') = searchBy (view env).
Proof.
  intros Hdel Hfetch. cbv zeta. unfold step. cbn [dispatch].
  rewrite (handleDelete_resolved _ _ _ _ _ _ _ Hdel Hfetch).
  repeat split.
Qed.

End Steps.

Lemma handleDelete_rejected_changes_no_cell_witness :
  let serving n : @Env FlakyService.Store :=
    {| view := Sample.loaded;
       outside := {| FlakyService.rows := [Sample.acme; Sample.globex];
                     FlakyService.budget := n |};
       emitted := [] |} in
  let del := handleDelete FlakyService.fetchProposals FlakyService.deleteProposal "1" in
  (view (snd (del (serving 0))) = Sample.loaded /\
   FlakyService.rows (outside (snd (del (serving 0)))) = [Sample.acme; Sample.globex] /\
   emitted (snd (del (serving 0)))
     = [console_error "Failed to delete proposal:" "Request failed"]) /\
  (view (snd (del (serving 1))) = Sample.loaded /\
   FlakyService.rows (outside (snd (del (serving 1)))) = [Sample.globex] /\
   emitted (snd (del (serving 1)))
     = [console_error "Failed to delete proposal:" "Network Error"]).
Proof.
  intros serving del.
  destruct (handleDelete_rejected_changes_no_cell
              FlakyService.fetchProposals FlakyService.deleteProposal (serving 0) "1")
    as [Hdel _].
  destruct (handleDelete_rejected_changes_no_cell
              FlakyService.fetchProposals FlakyService.deleteProposal (serving 1) "1")
    as [_ Hfetch].
  split.
  - unfold del. erewrite Hdel by reflexivity. repeat split.
  - unfold del. erewrite Hfetch by reflexivity. repeat split.
Defined.

Lemma delete_then_filter_effect_witness :
  let before :=
    Sample.env (with_filteredProposals [Sample.acme; Sample.globex]
                  (with_searchBy byTags (with_searchQuery "web" Sample.loaded))) in
  let after :=
    step MemoryService.fetchProposals MemoryService.deleteProposal DepsChanged
      (step MemoryService.fetchProposals MemoryService.deleteProposal
         (DeleteClicked "1") before) in
  proposals (view after) = [Sample.globex] /\
  filteredProposals (view after) = filterProposals byTags "web" [Sample.globex].
Proof.
  intros before after.
  destruct (delete_then_filter_effect
              MemoryService.fetchProposals MemoryService.deleteProposal
              before "1"
              {| MemoryService.rows := [Sample.globex]; MemoryService.offline := false |}
              [Sample.globex]
              {| MemoryService.rows := [Sample.globex]; MemoryService.offline := false |})
    as (Hp & Hf & _).
  - reflexivity.
  - reflexivity.
  - split; [exact Hp | exact Hf].
Defined.

(** ** More on selecting and sending *)

Section Selecting.

Context {World : Type}.

(** X8: the send-email action looks the selected id up in [proposals], not
    in the filtered list: whatever the query, the selector and the filtered
    list are, it raises the same notification, so a selected proposal that
    the search hides is still the one addressed. *)
Theorem handleSendEmail_ignores_the_filter
    (env : @Env World) (q : string) (by_ : SearchBy) (shown : list Proposal) :
  let hidden :=
    {| view := with_searchQuery q
                 (with_searchBy by_ (with_filteredProposals shown (view env)));
       outside := outside env; emitted := emitted env |} in
  emitted (snd (handleSendEmail hidden)) = emitted (snd (handleSendEmail env)) /\
  proposals (view (snd (handleSendEmail hidden))) = proposals (view env).
Proof. cbv zeta. rewrite !handleSendEmail_run. split; reflexivity. Qed.

(** X9: a row click writes the selection cell and nothing else, emits
    nothing, and accepts any id, in the list or not; three clicks on a row
    in a row leave the component exactly as one click does. *)
Theorem handleProposalSelect_three_clicks (env : @Env World) id' :
  let click e := snd (handleProposalSelect id' e) in
  click (click (click env)) = click env /\
  view (click env) = with_selectedProposal (selectionAfterClick id' env) (view env) /\
  outside (click env) = outside env /\
  emitted (click env) = emitted env.
Proof.
  cbv beta zeta. rewrite !handleProposalSelect_run.
  cbn [snd view outside emitted with_selectedProposal selectedProposal
       proposals filteredProposals loading selectedTemplate searchQuery searchBy].
  split; [|repeat split].
  destruct (Js.strictEq id' (selectedProposal (view env))) eqn:Heq;
    cbn [Js.strictEq]; rewrite ?String.eqb_refl; reflexivity.
Qed.

Lemma findSelected_none (s : State) selected :
  selectedProposal s = Some selected ->
  findSelected s = None <-> (forall p, In p (proposals s) -> id p <> selected).
Proof.
  intros Hsel. unfold findSelected. rewrite Hsel. cbn [Js.strictEq]. split.
  - intros Hnone p Hin Heq.
    apply (find_none _ _ Hnone) in Hin. cbn in Hin.
    rewrite Heq, String.eqb_refl in Hin. discriminate.
  - intros Hall. destruct (List.find _ _) as [p|] eqn:Hf; [|reflexivity].
    apply find_some in Hf as [Hin Heq]. apply String.eqb_eq in Heq.
    now destruct (Hall p Hin).
Qed.

(** X10: with a non-empty id selected, the send-email action answers
    "Proposal not found" exactly when no proposal of the list carries that
    id. *)
Theorem handleSendEmail_not_found_iff (env : @Env World) selected :
  selectedProposal (view env) = Some selected ->
  selected <> "" ->
  emits handleSendEmail env [toast_error "Proposal not found"]
  <-> (forall p, In p (proposals (view env)) -> id p <> selected).
Proof.
  intros Hsel Hne. rewrite <- (findSelected_none _ _ Hsel).
  assert (Hs : hasSelection (view env) = true).
  { unfold hasSelection. rewrite Hsel. now apply truthyStr_true. }
  unfold emits. rewrite handleSendEmail_run. cbn [snd emitted].
  destruct (sendEmailNotice_cases (view env))
    as [(Hs' & _) | [(_ & Hf & ->) | [(p & _ & Hf & _ & ->) | (p & _ & Hf & _ & ->)]]].
  - congruence.
  - split; trivial.
  - split; intros H; [apply app_inv_head in H; discriminate | congruence].
  - split; intros H; [apply app_inv_head in H; discriminate | congruence].
Qed.

End Selecting.

Lemma handleSendEmail_not_found_iff_witness :
  let selecting id' := Sample.env (with_selectedProposal (Some id') Sample.loaded) in
  emits handleSendEmail (selecting "9") [toast_error "Proposal not found"] /\
  ~ emits handleSendEmail (selecting "2") [toast_error "Proposal not found"].
Proof.
  intros selecting. split.
  - apply (handleSendEmail_not_found_iff (selecting "9") "9");
      [reflexivity | discriminate |].
    intros p [<-|[<-|[]]]; discriminate.
  - intros H.
    apply (handleSendEmail_not_found_iff (selecting "2") "2") with (p := Sample.globex)
      in H; [now apply H | reflexivity | discriminate | right; left; reflexivity].
Defined.

(** ** What is on screen *)

Lemma render_cases (s : State) :
  (loading s = true /\ render s = LoadingProposals) \/
  (loading s = false /\ proposals s = [] /\ render s = NoProposalsYet) \/
  (loading s = false /\ proposals s <> [] /\
   exists c,
     render s = SearchAndTable c
                  {| table_proposals := filteredProposals s;
                     table_selectedProposalId := selectedProposal s |} /\
     input_value c = searchQuery s /\
     searchBy_value c = searchBy s /\
     template_value c = selectedTemplate s /\
     template_items c = emailTemplateOptions /\
     send_disabled c = negb (hasSelection s)).
Proof.
  unfold render. destruct (loading s); [now left|]. right.
  destruct (proposals s) as [|p ps]; [now left|]. right.
  split; [reflexivity|]. split; [discriminate|].
  eexists. split; [reflexivity|]. repeat split.
Qed.

Section Screen.

Context {World : Type}.
Variable fetchProposals : World -> (Err + list Proposal) * World.
Variable deleteProposal : string -> World -> (Err + unit) * World.

(** X11: what the first load puts on screen.  Before it ends the loading
    line is shown.  After it, a fetch that rejects gives the same "No
    proposals yet" panel as a fetch that resolves with an empty collection;
    a fetch that resolves with rows gives the controls and the table with
    all the rows, an empty search box and the send button disabled. *)
Theorem render_after_mount (w : World) :
  let env' := step fetchProposals deleteProposal Mounted
                {| view := initialState; outside := w; emitted := [] |} in
  render initialState = LoadingProposals /\
  match fst (fetchProposals w) with
  | inl _ => render (view env') = NoProposalsYet
  | inr [] => render (view env') = NoProposalsYet
  | inr (p :: ps) =>
      exists c,
        render (view env')
          = SearchAndTable c {| table_proposals := p :: ps;
                                table_selectedProposalId := None |} /\
        input_value c = "" /\
        send_disabled c = true
  end.
Proof.
  cbv zeta. split; [reflexivity|]. unfold step. cbn [dispatch].
  destruct (fetchProposals w) as [[error|data] w'] eqn:H; cbn [fst].
  - now rewrite (loadProposals_rejected fetchProposals
                   {| view := initialState; outside := w; emitted := [] |} error w' H).
  - rewrite (loadProposals_resolved fetchProposals
               {| view := initialState; outside := w; emitted := [] |} data w' H).
    destruct data as [|p ps]; [reflexivity|].
    eexists. split; [reflexivity|]. split; reflexivity.
Qed.

(** X12: the send button is disabled by the very test the handler starts
    with.  When the button on screen is enabled, a click never raises the
    "Please select a proposal to send" notice: it raises an error or the
    success notice.  When it is disabled, that notice is what a call of the
    handler would raise. *)
Theorem send_button_guards_the_first_check (env : @Env World) c t :
  render (view env) = SearchAndTable c t ->
  (send_disabled c = false ->
     exists msg,
       emits handleSendEmail env [toast_error msg] \/
       emits handleSendEmail env [toast_success msg]) /\
  (send_disabled c = true ->
     emits handleSendEmail env [toast "Please select a proposal to send"]).
Proof.
  intros Hr.
  destruct (render_cases (view env))
    as [(_ & Hr') | [(_ & _ & Hr') | (_ & _ & c' & Hr' & _ & _ & _ & _ & Hd)]];
    rewrite Hr in Hr'; try discriminate.
  injection Hr' as -> _. rewrite Hd.
  unfold emits. rewrite handleSendEmail_run. cbn [snd emitted].
  destruct (sendEmailNotice_cases (view env))
    as [(Hs & ->) | [(Hs & _ & ->) | [(p & Hs & _ & _ & ->) | (p & Hs & _ & _ & ->)]]];
    rewrite Hs; cbn [negb]; split; intros; try discriminate; eauto.
Qed.

(** X13: which of the three bodies is on screen changes only by the load
    and by a delete.  Typing a query, switching the selector or the
    template, a run of the filter effect, a row click and a send click
    leave the loading line, the empty panel or the table in place; in
    particular a search that matches no row keeps the controls and shows a
    table without rows. *)
Theorem body_only_changes_by_load_or_delete (e : Event) (env : @Env World) :
  e <> Mounted -> (forall i, e <> DeleteClicked i) ->
  let after := view (step fetchProposals deleteProposal e env) in
  (render after = LoadingProposals <-> render (view env) = LoadingProposals) /\
  (render after = NoProposalsYet <-> render (view env) = NoProposalsYet) /\
  ((exists c t, render after = SearchAndTable c t)
   <-> (exists c t, render (view env) = SearchAndTable c t)).
Proof.
  intros Hm Hd. cbv zeta.
  pose proof (step_loading fetchProposals deleteProposal e env Hm) as Hl.
  pose proof (step_proposals fetchProposals deleteProposal e env Hm Hd) as Hp.
  unfold render. rewrite Hl, Hp.
  destruct (loading (view env)); [|destruct (proposals (view env))]; cbn.
  - repeat split; try discriminate; intros (c & t & H); discriminate.
  - repeat split; try discriminate; intros (c & t & H); discriminate.
  - repeat split; try discriminate; intros _; eauto.
Qed.

End Screen.

Lemma send_button_guards_the_first_check_witness :
  (exists msg,
      emits handleSendEmail
        (Sample.env (with_selectedProposal (Some "2") Sample.loaded))
        [toast_error msg] \/
      emits handleSendEmail
        (Sample.env (with_selectedProposal (Some "2") Sample.loaded))
        [toast_success msg]) /\
  emits handleSendEmail (Sample.env Sample.loaded)
    [toast "Please select a proposal to send"].
Proof.
  split.
  - eapply (send_button_guards_the_first_check
              (Sample.env (with_selectedProposal (Some "2") Sample.loaded)));
      reflexivity.
  - eapply (send_button_guards_the_first_check (Sample.env Sample.loaded));
      reflexivity.
Defined.

Lemma body_only_changes_by_load_or_delete_witness :
  let go := step MemoryService.fetchProposals MemoryService.deleteProposal in
  let env := go DepsChanged (go (SearchInput "zzz") (Sample.env Sample.loaded)) in
  filteredProposals (view env) = [] /\
  exists c t, render (view env) = SearchAndTable c t /\ table_proposals t = [].
Proof.
  intros go env. split; [reflexivity|].
  assert (H : exists c t, render (view env) = SearchAndTable c t).
  { apply (body_only_changes_by_load_or_delete
             MemoryService.fetchProposals MemoryService.deleteProposal DepsChanged
             (go (SearchInput "zzz") (Sample.env Sample.loaded)));
      [discriminate | discriminate |].
    apply (body_only_changes_by_load_or_delete
             MemoryService.fetchProposals MemoryService.deleteProposal
             (SearchInput "zzz") (Sample.env Sample.loaded));
      [discriminate | discriminate |].
    eexists _, _. reflexivity. }
  destruct H as (c & t & H). exists c, t. split; [exact H|].
  vm_compute in H. injection H as _ <-. reflexivity.
Defined.

(** ** States reached through the page *)

Lemma existsb_fst_In (v : string) (l : list (string * string)) :
  existsb (fun o => String.eqb (fst o) v) l = true -> In v (map fst l).
Proof.
  rewrite existsb_exists. intros (o & Hin & Heq).
  apply String.eqb_eq in Heq. subst v. now apply in_map.
Qed.

Lemma sendEmailNotice_with_selection (s : State) :
  hasSelection s = true ->
  sendEmailNotice s <> toast "Please select a proposal to send".
Proof.
  intros Hs.
  destruct (sendEmailNotice_cases s)
    as [(Hs' & _) | [(_ & _ & ->) | [(p & _ & _ & _ & ->) | (p & _ & _ & _ & ->)]]];
    [congruence | discriminate..].
Qed.

Section Driven.

Context {World : Type}.
Variable fetchProposals : World -> (Err + list Proposal) * World.
Variable deleteProposal : string -> World -> (Err + unit) * World.

Lemma offers_not_mounted (b : Body) (e : Event) : offers b e = true -> e <> Mounted.
Proof. intros H ->. discriminate. Qed.

Lemma offers_template (s : State) value :
  offers (render s) (TemplateSelected value) = true -> In value templateValues.
Proof.
  destruct (render_cases s)
    as [(_ & ->) | [(_ & _ & ->) | (_ & _ & c & -> & _ & _ & _ & Hitems & _)]];
    cbn [offers]; try discriminate.
  rewrite Hitems. apply existsb_fst_In.
Qed.

Lemma offers_send (s : State) :
  offers (render s) SendEmailClicked = true -> hasSelection s = true.
Proof.
  destruct (render_cases s)
    as [(_ & ->) | [(_ & _ & ->) | (_ & _ & c & -> & _ & _ & _ & _ & Hd)]];
    cbn [offers]; try discriminate.
  rewrite Hd. now destruct (hasSelection s).
Qed.

(** X14: what holds of every state a user can bring the page to.  The
    loading flag is off; the template cell holds one of the four values of
    the selector; the notice "Please select a proposal to send" has never
    been raised, because the button that would raise it is disabled
    whenever the first check of the handler would fail; and the filtered
    list is a subsequence of the full list. *)
Theorem driven_invariants (env : @Env World) :
  driven fetchProposals deleteProposal env ->
  loading (view env) = false /\
  In (selectedTemplate (view env)) templateValues /\
  Forall (fun x => x <> toast "Please select a proposal to send") (emitted env) /\
  inOrder (view env).
Proof.
  induction 1 as [w | e env Hdriven (IHl & IHt & IHe & IHo) Hoff].
  - split; [apply step_mounted_loading|].
    split; [rewrite step_selectedTemplate; left; reflexivity|].
    split.
    + destruct (step_effects fetchProposals deleteProposal Mounted
                  {| view := initialState; outside := w; emitted := [] |})
        as (_ & l & -> & [-> | [(m & error & -> & _) | (Hsend & _)]]);
        [constructor | | discriminate].
      cbn. constructor; [discriminate | constructor].
    + apply step_inOrder. unfold inOrder. reflexivity.
  - split; [rewrite step_loading; [exact IHl | now apply offers_not_mounted in Hoff]|].
    split.
    { rewrite step_selectedTemplate.
      destruct e; try exact IHt. now apply offers_template in Hoff. }
    split; [|now apply step_inOrder].
    destruct (step_effects fetchProposals deleteProposal e env)
      as (_ & l & -> & [-> | [(m & error & -> & _) | (-> & ->)]]).
    + now rewrite app_nil_r.
    + apply Forall_app. split; [exact IHe|]. constructor; [discriminate | constructor].
    + apply Forall_app. split; [exact IHe|]. constructor; [|constructor].
      apply sendEmailNotice_with_selection. now apply offers_send.
Qed.

End Driven.

Lemma driven_invariants_witness :
  let go := step MemoryService.fetchProposals MemoryService.deleteProposal in
  let env :=
    go SendEmailClicked
      (go (RowClicked "2")
         (go (TemplateSelected "formal")
            (go Mounted (MemoryService.mount initialState Sample.store)))) in
  emitted env = [toast_error "No email address found for this client"] /\
  loading (view env) = false /\
  In (selectedTemplate (view env)) templateValues /\
  Forall (fun x => x <> toast "Please select a proposal to send") (emitted env) /\
  inOrder (view env).
Proof.
  intros go env. split; [reflexivity|].
  apply (driven_invariants MemoryService.fetchProposals MemoryService.deleteProposal).
  apply driven_event; [|reflexivity].
  apply driven_event; [|reflexivity].
  apply driven_event; [|reflexivity].
  apply driven_mounted.
Defined.

(** ** Rows that share an id *)

Lemma find_first_match {A} (f : A -> bool) (before : list A) (x : A) (after : list A) :
  (forall y, In y before -> f y = false) ->
  f x = true ->
  List.find f (before ++ x :: after) = Some x.
Proof.
  intros Hbefore Hx. induction before as [|y before IH]; simpl.
  - now rewrite Hx.
  - rewrite (Hbefore y) by now left. apply IH. intros z Hz. apply Hbefore. now right.
Qed.

(** X15: the send-email action addresses the first row that carries the
    selected id.  When [proposals] lists it after rows of other ids, that
    row decides the outcome, whatever follows it, a second row with the
    same id included: without a clientEmail, or with an empty one, the
    error "No email address found for this client" is raised; with a
    non-empty one the success notice names that address. *)
Theorem handleSendEmail_addresses_first_match {World}
    (env : @Env World) selected before p after :
  selectedProposal (view env) = Some selected ->
  selected <> "" ->
  proposals (view env) = before ++ p :: after ->
  (forall x, In x before -> id x <> selected) ->
  id p = selected ->
  (clientEmail p = None \/ clientEmail p = Some "" ->
     emits handleSendEmail env
       [toast_error "No email address found for this client"]) /\
  (forall email, clientEmail p = Some email -> email <> "" ->
     emits handleSendEmail env
       [toast_success ("Email sent to " +:+ email +:+ " using "
                       +:+ selectedTemplate (view env) +:+ " template")]).
Proof.
  intros Hsel Hne Hps Hbefore Hid.
  assert (Hfind : List.find (fun x => String.eqb (id x) selected) (proposals (view env))
                  = Some p).
  { rewrite Hps. apply find_first_match.
    - intros y Hy. apply String.eqb_neq. now apply Hbefore.
    - now apply String.eqb_eq. }
  assert (Hs : negb (Js.truthy (selectedProposal (view env))) = false).
  { rewrite Hsel. cbn. apply truthyStr_true in Hne. now rewrite Hne. }
  unfold emits. rewrite handleSendEmail_run. cbn [snd emitted]. split.
  - intros Hmail. unfold sendEmailNotice. rewrite Hs, Hsel. cbn [Js.strictEq].
    rewrite Hfind. now destruct Hmail as [-> | ->].
  - intros email Hmail Hmne.
    now rewrite (sendEmailNotice_success _ _ _ _ Hsel Hne Hfind Hmail Hmne).
Qed.

Lemma handleSendEmail_addresses_first_match_witness :
  let twin := {| id := "2"; clientName := "Globex Twin";
                 clientEmail := Some "twin@globex.com"; tags := [] |} in
  let env :=
    Sample.env (with_selectedProposal (Some "2")
                  (with_proposals [Sample.acme; Sample.globex; twin] Sample.loaded)) in
  emits handleSendEmail env [toast_error "No email address found for this client"].
Proof.
  intros twin env.
  apply (handleSendEmail_addresses_first_match env "2" [Sample.acme] Sample.globex [twin]).
  - reflexivity.
  - discriminate.
  - reflexivity.
  - intros x [<-|[]]. discriminate.
  - reflexivity.
  - left. reflexivity.
Defined.
